(** * Tel_Bot: a Telegram-to-Ollama relay, embedded from [main.py]

    The program is a thin adapter: module-level configuration read from the
    process environment, a [/start] greeting handler and a text handler that
    forwards the message to an Ollama server and relays the answer.

    The embedding keeps the shape of the Python source.  Every call the
    handlers make to the outside world (Telegram, the HTTP client, the
    logger) appends an event to a trace; a call may return or raise, and
    what it does is fixed by a [World] the handler runs against.  Python
    exceptions are carried by a small state-and-exception monad with a
    [try_except] combinator that dispatches on the exception class in the
    order of the [except] clauses.

    The specification takes the messaging platform as a collaborator that
    provides the reply call, and leaves its failures out of scope.  The
    properties of the relay are therefore stated for worlds in which the
    platform accepts the calls ([platform_ok]); what the handler does when
    it does not is recorded separately.

    The handlers are first embedded for an update that carries a message
    ([Update]).  The application also hands them updates without one (edited
    messages, channel posts): [inbound] and [dispatch] cover those, where
    the handlers fail on their first use of [update.message]. *)

From Stdlib Require Import ZArith List Bool Ascii String Lia.
From stdpp Require Import base strings gmap pretty.
Import ListNotations.

Local Open Scope string_scope.
Set Warnings "-register-all".

(** ** Python values and exceptions *)

Module Python.

(** Values that [json.loads] can produce, which is all the handler ever
    holds besides plain strings.  A float is kept as its literal. *)
Inductive pyval : Type :=
| PyNone
| PyBool (b : bool)
| PyInt (n : Z)
| PyFloat (literal : string)
| PyStr (s : string)
| PyList (xs : list pyval)
| PyDict (items : list (string * pyval)).

(** [type(v).__name__] *)
Definition type_name (v : pyval) : string :=
  match v with
  | PyNone => "NoneType"
  | PyBool _ => "bool"
  | PyInt _ => "int"
  | PyFloat _ => "float"
  | PyStr _ => "str"
  | PyList _ => "list"
  | PyDict _ => "dict"
  end.

(** The exception classes the handler can tell apart, plus names for the
    ones that end in the catch-all clause. *)
Inductive exn_class : Type :=
| ConnectionError     (* requests.exceptions.ConnectionError and subclasses *)
| HTTPError           (* requests.exceptions.HTTPError *)
| JSONDecodeError     (* requests.exceptions.JSONDecodeError *)
| AttributeError
| TelegramError       (* telegram.error.TelegramError and subclasses *)
| OtherException.     (* any other subclass of Exception *)

(** An exception object: its class and [str(e)]. *)
Record exn : Type := Exn { exn_cls : exn_class; exn_str : string }.

(** Outcome of a Python call. *)
Inductive result (A : Type) : Type :=
| Return (a : A)
| Raise (e : exn).
Arguments Return {A} a.
Arguments Raise {A} e.

(** Entries of a dict in insertion order; keys of a dict are unique, and
    the lookup takes the first entry with the key. *)
Fixpoint items_lookup (key : string) (items : list (string * pyval)) : option pyval :=
  match items with
  | [] => None
  | (k, v) :: rest => if String.eqb k key then Some v else items_lookup key rest
  end.

(** [d.get(key, default)]: defined on dicts only; on any other value the
    attribute access fails. *)
Definition get (d : pyval) (key : string) (default : pyval) : result pyval :=
  match d with
  | PyDict items =>
      match items_lookup key items with
      | Some v => Return v
      | None => Return default
      end
  | _ => Raise (Exn AttributeError
                    ("'" +:+ type_name d +:+ "' object has no attribute 'get'"))
  end.

(** Truthiness of a value of type [Optional[str]]: [None] and the empty
    string are false. *)
Definition truthy (o : option string) : bool :=
  match o with
  | None => false
  | Some EmptyString => false
  | Some (String _ _) => true
  end.

(** [f"{o}"] for a value of type [Optional[str]]. *)
Definition format (o : option string) : string :=
  match o with
  | None => "None"
  | Some s => s
  end.

(** [html.escape(s)] with the default [quote=True].  The library replaces
    [&] first and the other four characters after it, which is the same as
    replacing each character on its own. *)
Definition escape_char (c : ascii) : string :=
  if Ascii.eqb c "&" then "&amp;"
  else if Ascii.eqb c "<" then "&lt;"
  else if Ascii.eqb c ">" then "&gt;"
  else if Ascii.eqb c (ascii_of_nat 34) then "&quot;"
  else if Ascii.eqb c "'" then "&#x27;"
  else String c EmptyString.

Fixpoint escape (s : string) : string :=
  match s with
  | EmptyString => EmptyString
  | String c rest => escape_char c +:+ escape rest
  end.

End Python.
Export Python.

(** [needle] occurs in [hay]. *)
Definition contains (needle hay : string) : Prop :=
  exists pre post, hay = pre +:+ needle +:+ post.

(** ** Module-level configuration (lines 12-17) *)

Record Globals : Type := {
  TELEGRAM_BOT_TOKEN : string;
  OLLAMA_HOST : option string;
  OLLAMA_GENERATE_ENDPOINT : string;
  OLLAMA_MODEL : string
}.

(** [os.environ.get(key)] and [os.environ.get(key, default)] *)
Definition environ_get (environ : gmap string string) (key : string) : option string :=
  environ !! key.

Definition environ_get_default (environ : gmap string string) (key default : string) : string :=
  match environ !! key with
  | Some v => v
  | None => default
  end.

(** What importing the module leaves in its global names. *)
Definition load_globals (environ : gmap string string) : Globals :=
  let token := environ_get_default environ "TELEGRAM_BOT_TOKEN" "YOUR_TELEGRAM_BOT_TOKEN" in
  let host := environ_get environ "OLLAMA_HOST" in
  {| TELEGRAM_BOT_TOKEN := token;
     OLLAMA_HOST := host;
     OLLAMA_GENERATE_ENDPOINT := format host +:+ "/api/generate";
     OLLAMA_MODEL := environ_get_default environ "OLLAMA_MODEL" "llama3" |}.

(** ** The outside world *)

(** The user behind an update ([telegram.User]). *)
Record User : Type := {
  user_id : Z;
  first_name : string;
  last_name : option string
}.

(** An update that carries a message ([update.message] is set), and what
    the handlers read from it: [update.effective_user],
    [update.effective_chat.id] and [update.message.text].  Updates without
    a message are in [inbound] below. *)
Record Update : Type := {
  effective_user : User;
  effective_chat_id : Z;
  message_text : string
}.

(** What the handler reads from a [requests.Response]: the status line, the
    final URL, and what [response.json()] gives, the parsed body or the
    message of the decoding error. *)
Record Response : Type := {
  status_code : Z;
  reason : string;
  url : string;
  json_body : string + pyval
}.

(** How the outside behaves during one handler invocation: whether the
    typing indicator call raises, what the HTTP POST gives, and whether the
    [n]-th call that sends a message to the chat (counted from 0) raises. *)
Record World : Type := {
  send_chat_action_raises : option exn;
  post_outcome : result Response;
  reply_raises : nat -> pyval -> option exn
}.

(** Calls made to the outside, in order.  A call that sends a message to
    the chat records whether it returned ([true]) or raised ([false]).  That
    is all the handler sees of it: a call that raised, say on a timeout, may
    still have put its message in the chat. *)
Inductive event : Type :=
| SendChatAction (chat_id : Z) (action : string)
| Post (endpoint : string) (json : pyval)
| Json
| LogError (msg : string)
| ReplyText (text : pyval) (returned : bool)
| ReplyHtml (text : string) (returned : bool).

Definition is_reply (ev : event) : bool :=
  match ev with
  | ReplyText _ _ | ReplyHtml _ _ => true
  | _ => false
  end.

Definition is_accepted (ev : event) : bool :=
  match ev with
  | ReplyText _ returned | ReplyHtml _ returned => returned
  | _ => false
  end.

Definition is_post (ev : event) : bool :=
  match ev with
  | Post _ _ => true
  | _ => false
  end.

Definition is_json (ev : event) : bool :=
  match ev with
  | Json => true
  | _ => false
  end.

(** The calls that send a message to the chat, and those of them that
    returned. *)
Definition reply_calls (tr : list event) : list event := filter is_reply tr.
Definition accepted_replies (tr : list event) : list event := filter is_accepted tr.
Definition post_calls (tr : list event) : list event := filter is_post tr.
Definition json_calls (tr : list event) : list event := filter is_json tr.

(** ** The handler monad *)

(** The module's global names and the calls made so far. *)
Record State : Type := {
  globals : Globals;
  trace : list event
}.

Definition M (A : Type) : Type := World -> State -> result A * State.

Definition ret {A : Type} (a : A) : M A := fun _ st => (Return a, st).

Definition bind {A B : Type} (m : M A) (k : A -> M B) : M B :=
  fun w st =>
    match m w st with
    | (Return a, st') => k a w st'
    | (Raise e, st') => (Raise e, st')
    end.

Notation "x <- m ;; k" := (bind m (fun x => k))
  (at level 62, m at next level, right associativity).
Notation "m ;;; k" := (bind m (fun _ => k))
  (at level 62, right associativity).

Definition raise {A : Type} (e : exn) : M A := fun _ st => (Raise e, st).

Definition lift {A : Type} (r : result A) : M A := fun _ st => (r, st).

(** [try: body except ...: handler]: an exception of the body is handed to
    the handler; one raised by the handler itself goes on to the caller. *)
Definition try_except {A : Type} (body : M A) (handler : exn -> M A) : M A :=
  fun w st =>
    match body w st with
    | (Return a, st') => (Return a, st')
    | (Raise e, st') => handler e w st'
    end.

Definition emit (ev : event) : M unit :=
  fun _ st => (Return tt, {| globals := globals st; trace := trace st ++ [ev] |}).

Definition read {A : Type} (name : Globals -> A) : M A :=
  fun _ st => (Return (name (globals st)), st).

Definition raise_if (o : option exn) : M unit :=
  match o with
  | None => ret tt
  | Some e => raise e
  end.

(** ** Calls to the libraries *)

(** [context.bot.send_chat_action(chat_id=..., action=...)] *)
Definition send_chat_action (chat_id : Z) (action : string) : M unit :=
  fun w => (emit (SendChatAction chat_id action) ;;; raise_if (send_chat_action_raises w)) w.

(** [requests.post(url, json=payload)] *)
Definition requests_post (endpoint : string) (payload : pyval) : M Response :=
  fun w => (emit (Post endpoint payload) ;;; lift (post_outcome w)) w.

(** [response.raise_for_status()] of the requests library: it builds a
    message when [400 <= status_code < 500] (client error) or
    [500 <= status_code < 600] (server error), raises [HTTPError] with it,
    and returns for every other status.  The library follows a redirect
    only when the answer has a [Location] header; a 3xx answer without one
    reaches this call as it is, body included. *)
Definition raise_for_status (r : Response) : M unit :=
  let code := status_code r in
  if ((400 <=? code) && (code <? 500))%Z then
    raise (Exn HTTPError
      (pretty code +:+ " Client Error: " +:+ reason r +:+ " for url: " +:+ url r))
  else if ((500 <=? code) && (code <? 600))%Z then
    raise (Exn HTTPError
      (pretty code +:+ " Server Error: " +:+ reason r +:+ " for url: " +:+ url r))
  else ret tt.

(** [response.json()] *)
Definition response_json (r : Response) : M pyval :=
  emit Json ;;;
  match json_body r with
  | inl msg => raise (Exn JSONDecodeError msg)
  | inr v => ret v
  end.

(** [logging.error(msg)] *)
Definition logging_error (msg : string) : M unit := emit (LogError msg).

(** [update.message.reply_text(text)] *)
Definition reply_text (text : pyval) : M unit :=
  fun w st =>
    match reply_raises w (length (reply_calls (trace st))) text with
    | None => emit (ReplyText text true) w st
    | Some e => (emit (ReplyText text false) ;;; raise e) w st
    end.

(** [update.message.reply_html(text)] *)
Definition reply_html (text : string) : M unit :=
  fun w st =>
    match reply_raises w (length (reply_calls (trace st))) (PyStr text) with
    | None => emit (ReplyHtml text true) w st
    | Some e => (emit (ReplyHtml text false) ;;; raise e) w st
    end.

(** [user.full_name] and [user.mention_html()] of python-telegram-bot. *)
Definition full_name (u : User) : string :=
  if truthy (last_name u)
  then first_name u +:+ " " +:+ format (last_name u)
  else first_name u.

Definition dquote : string := String (ascii_of_nat 34) EmptyString.

Definition mention_html (u : User) : string :=
  "<a href=" +:+ dquote +:+ "tg://user?id=" +:+ pretty (user_id u) +:+ dquote +:+ ">"
    +:+ escape (full_name u) +:+ "</a>".

(** ** The handlers (lines 45-103) *)

Definition start (update : Update) : M unit :=
  let user := effective_user update in
  reply_html
    ("Hi " +:+ mention_html user +:+ "! I'm a bot powered by a local Ollama model. "
      +:+ "Just send me a message and I'll respond.").

Definition config_error_text : string :=
  "Ollama host is not configured. Please set the OLLAMA_HOST environment variable.".

Definition fallback_text : string := "No response from model.".

Definition connection_error_text (host : option string) : string :=
  "Could not connect to the Ollama server at " +:+ format host +:+ ". "
    +:+ "Please make sure it is running and accessible.".

Definition http_error_text (e : exn) : string :=
  "HTTP error from Ollama server: " +:+ exn_str e.

Definition unexpected_error_text (e : exn) : string :=
  "An unexpected error occurred: " +:+ exn_str e.

Definition handle_message (update : Update) : M unit :=
  let user_message := message_text update in
  let chat_id := effective_chat_id update in
  host <- read OLLAMA_HOST ;;
  if negb (truthy host) then
    reply_text (PyStr config_error_text)
  else
    send_chat_action chat_id "typing" ;;;
    try_except
      (model <- read OLLAMA_MODEL ;;
       let payload :=
         PyDict [("model", PyStr model);
                 ("prompt", PyStr user_message);
                 ("stream", PyBool false)] in
       endpoint <- read OLLAMA_GENERATE_ENDPOINT ;;
       response <- requests_post endpoint payload ;;
       raise_for_status response ;;;
       data <- response_json response ;;
       ollama_response <- lift (get data "response" (PyStr fallback_text)) ;;
       reply_text ollama_response)
      (fun e =>
         match exn_cls e with
         | ConnectionError =>
             host <- read OLLAMA_HOST ;;
             let error_message := connection_error_text host in
             logging_error error_message ;;;
             reply_text (PyStr error_message)
         | HTTPError =>
             let error_message := http_error_text e in
             logging_error error_message ;;;
             reply_text (PyStr error_message)
         | _ =>
             let error_message := unexpected_error_text e in
             logging_error error_message ;;;
             reply_text (PyStr error_message)
         end).

(** One invocation of a handler by the dispatcher: the handler starts with
    the module's globals and an empty trace. *)
Definition invoke (handler : Update -> M unit) (g : Globals) (update : Update) (w : World)
  : result unit * State :=
  handler update w {| globals := g; trace := [] |}.

Definition outcome (handler : Update -> M unit) (g : Globals) (update : Update) (w : World)
  : result unit :=
  fst (invoke handler g update w).

Definition calls (handler : Update -> M unit) (g : Globals) (update : Update) (w : World)
  : list event :=
  trace (snd (invoke handler g update w)).

(** ** The dispatcher ([main], lines 106-116) *)

(** What reaches the two handlers [main] registers,
    [CommandHandler("start", start)] and
    [MessageHandler(filters.TEXT & ~filters.COMMAND, handle_message)].  Both
    match on [update.effective_message], and line 116 asks for every type
    of update: besides new messages, the handlers get edited messages and
    channel posts, for which [update.message] is [None]. *)
Inductive inbound : Type :=
| StartCommand (update : Update)
| TextMessage (update : Update)
| EditedStartCommand (chat_id : Z)
| EditedTextMessage (chat_id : Z) (text : string).

(** [update.message.attr] when [update.message] is [None]. *)
Definition none_has_no (attr : string) : exn :=
  Exn AttributeError ("'NoneType' object has no attribute '" +:+ attr +:+ "'").

(** The registered handler, applied to the update.  Without a message the
    first use of [update.message] fails before any call is made:
    [update.message.reply_html] on line 48 of [start],
    [update.message.text] on line 56 of [handle_message]. *)
Definition dispatch (i : inbound) : M unit :=
  match i with
  | StartCommand update => start update
  | TextMessage update => handle_message update
  | EditedStartCommand _ => raise (none_has_no "reply_html")
  | EditedTextMessage _ _ => raise (none_has_no "text")
  end.

(** One invocation for an inbound update, as [invoke] is for an update with
    a message. *)
Definition serve (g : Globals) (i : inbound) (w : World) : result unit * State :=
  dispatch i w {| globals := g; trace := [] |}.

Definition served_outcome (g : Globals) (i : inbound) (w : World) : result unit :=
  fst (serve g i w).

Definition served_calls (g : Globals) (i : inbound) (w : World) : list event :=
  trace (snd (serve g i w)).

(** The running process: the module's globals and every call made so far. *)
Record Process : Type := {
  module_globals : Globals;
  history : list event
}.

(** One turn of the polling loop.  The handler runs against the globals as
    they are now and leaves them as it left them; an exception it raises is
    logged by the application and the loop goes on. *)
Definition process_update (p : Process) (i : inbound) (w : World) : Process :=
  let (_, st) := serve (module_globals p) i w in
  {| module_globals := globals st; history := history p ++ trace st |}.

Fixpoint run_polling (p : Process) (updates : list (inbound * World)) : Process :=
  match updates with
  | [] => p
  | (i, w) :: rest => run_polling (process_update p i w) rest
  end.

(** [main]: the application is built from the module's globals and polls
    until it is stopped; [updates] are the updates it gets until then, each
    with the behaviour of the outside while it is handled. *)
Definition main (g : Globals) (updates : list (inbound * World)) : Process :=
  run_polling {| module_globals := g; history := [] |} updates.

(** The messaging platform accepts every call of the invocation. *)
Definition platform_ok (w : World) : Prop :=
  send_chat_action_raises w = None /\ forall n text, reply_raises w n text = None.

(** The payload of lines 71-75. *)
Definition payload_of (g : Globals) (update : Update) : pyval :=
  PyDict [("model", PyStr (OLLAMA_MODEL g));
          ("prompt", PyStr (message_text update));
          ("stream", PyBool false)].

(** ** Definitions used by the properties *)

(** What the handler does once the server answered with a status that
    [raise_for_status] lets through and a JSON object: the value under
    [response], or the fallback text, goes to [reply_text] as it is. *)
Definition relayed (items : list (string * pyval)) : pyval :=
  match items_lookup "response" items with
  | Some v => v
  | None => PyStr fallback_text
  end.

(** The specification's wording for HTTP failures: every status outside 2xx
    is answered with the HTTP-error text, and the body is not read. *)
Definition non_2xx_is_http_failure : Prop :=
  forall (g : Globals) (update : Update) (w : World) (r : Response),
    truthy (OLLAMA_HOST g) = true ->
    platform_ok w ->
    post_outcome w = Return r ->
    ~ (200 <= status_code r < 300)%Z ->
    json_calls (calls handle_message g update w) = [] /\
    (exists detail,
       reply_calls (calls handle_message g update w)
         = [ReplyText (PyStr ("HTTP error from Ollama server: " +:+ detail)) true]) /\
    outcome handle_message g update w = Return tt.

Definition sample_environ : gmap string string :=
  <["OLLAMA_HOST" := "http://localhost:11434"]> empty.

Definition sample_globals : Globals := load_globals sample_environ.

Definition alice : User :=
  {| user_id := 42; first_name := "Alice"; last_name := None |}.

Definition sample_update : Update :=
  {| effective_user := alice; effective_chat_id := 7; message_text := "hi" |}.

(** A world in which the platform accepts everything. *)
Definition accepting (post : result Response) : World :=
  {| send_chat_action_raises := None;
     post_outcome := post;
     reply_raises := fun _ _ => None |}.

Definition answer (code : Z) (reason : string) (body : string + pyval) : Response :=
  {| status_code := code;
     reason := reason;
     url := "http://localhost:11434/api/generate";
     json_body := body |}.

Definition hello_body : list (string * pyval) := [("response", PyStr "Hello!")].

(** The text of lines 49-50. *)
Definition greeting_for (user : User) : string :=
  "Hi " +:+ mention_html user +:+ "! I'm a bot powered by a local Ollama model. "
    +:+ "Just send me a message and I'll respond.".

(** A platform that refuses the first message of the invocation. *)
Definition refusing_first (post : result Response) : World :=
  {| send_chat_action_raises := None;
     post_outcome := post;
     reply_raises := fun n _ =>
       match n with
       | O => Some (Exn TelegramError "Message text is empty")
       | S _ => None
       end |}.

Definition ok_hello : Response := answer 200 "OK" (inr (PyDict hello_body)).
Definition ok_empty : Response := answer 200 "OK" (inr (PyDict [])).
Definition ok_null : Response := answer 200 "OK" (inr (PyDict [("response", PyNone)])).
Definition server_error : Response :=
  answer 500 "Internal Server Error" (inl "Expecting value: line 1 column 1 (char 0)").
Definition refused : exn := Exn ConnectionError "Connection refused".

(** ** Definitions used by the further properties *)

(** Every error that is logged is then sent to the chat with the same text,
    and that reply is the last call of the invocation. *)
Fixpoint well_logged (tr : list event) : Prop :=
  match tr with
  | [] => True
  | LogError msg :: rest => exists delivered, rest = [ReplyText (PyStr msg) delivered]
  | _ :: rest => well_logged rest
  end.

(** The request of lines 71-78 for some message text, as the module's
    globals fix it. *)
Definition request_of (g : Globals) (ev : event) : Prop :=
  is_post ev = true ->
  exists text,
    ev = Post (OLLAMA_GENERATE_ENDPOINT g)
              (PyDict [("model", PyStr (OLLAMA_MODEL g));
                       ("prompt", PyStr text);
                       ("stream", PyBool false)]).

(** A new text message, as against a command, an edit or a channel post. *)
Definition is_text_message (u : inbound * World) : bool :=
  match fst u with
  | TextMessage _ => true
  | _ => false
  end.

(** The update carries a message. *)
Definition has_message (i : inbound) : bool :=
  match i with
  | StartCommand _ | TextMessage _ => true
  | EditedStartCommand _ | EditedTextMessage _ _ => false
  end.

(** The text [raise_for_status] gives an error status. *)
Definition status_detail (r : Response) : string :=
  pretty (status_code r) +:+ " "
    +:+ (if (status_code r <? 500)%Z then "Client" else "Server")
    +:+ " Error: " +:+ reason r +:+ " for url: " +:+ url r.

(** The mapping rules, written as a table from what the inference side does
    to the reply the user gets: the configuration error without a host; the
    connection text for a connection failure; the HTTP-error text for an
    error status (4xx or 5xx, the statuses [raise_for_status] rejects); the
    unexpected-error text for any other failure; and, on success, the value
    under [response] or the fallback text.  It is written apart from
    [handle_message], to compare the handler with. *)
Definition reply_rule (g : Globals) (w : World) : pyval :=
  if negb (truthy (OLLAMA_HOST g)) then PyStr config_error_text
  else
    match post_outcome w with
    | Raise e =>
        match exn_cls e with
        | ConnectionError =>
            PyStr ("Could not connect to the Ollama server at "
                     +:+ format (OLLAMA_HOST g)
                     +:+ ". Please make sure it is running and accessible.")
        | HTTPError => PyStr ("HTTP error from Ollama server: " +:+ exn_str e)
        | _ => PyStr ("An unexpected error occurred: " +:+ exn_str e)
        end
    | Return r =>
        if ((400 <=? status_code r) && (status_code r <? 600))%Z
        then PyStr ("HTTP error from Ollama server: " +:+ status_detail r)
        else
          match json_body r with
          | inl msg => PyStr ("An unexpected error occurred: " +:+ msg)
          | inr (PyDict items) => relayed items
          | inr data =>
              PyStr ("An unexpected error occurred: '" +:+ type_name data
                       +:+ "' object has no attribute 'get'")
          end
    end.

(** A platform that refuses the typing indicator. *)
Definition typing_refused (post : result Response) : World :=
  {| send_chat_action_raises := Some (Exn TelegramError "Timed out");
     post_outcome := post;
     reply_raises := fun _ _ => None |}.

Definition not_json : Response :=
  answer 200 "OK" (inl "Expecting value: line 1 column 1 (char 0)").
Definition ok_list : Response := answer 200 "OK" (inr (PyList [])).
Definition see_other : Response := answer 303 "See Other" (inr (PyDict hello_body)).
Definition timed_out : exn := Exn OtherException "Read timed out.".

(** * Properties *)

(** ** Strings *)

Lemma contains_intro (pre needle post : string) :
  contains needle (pre +:+ needle +:+ post).
Proof. exists pre, post. reflexivity. Qed.

Lemma string_app_assoc (a b c : string) : (a +:+ b) +:+ c = a +:+ (b +:+ c).
Proof.
  induction a as [|ch a IH]; [reflexivity |].
  change (String ch ((a +:+ b) +:+ c) = String ch (a +:+ (b +:+ c))).
  now rewrite IH.
Qed.

(** Escaping goes character by character, so it distributes over [+:+]. *)
Lemma escape_app (a b : string) : escape (a +:+ b) = escape a +:+ escape b.
Proof.
  induction a as [|ch a IH]; [reflexivity |].
  change (escape_char ch +:+ escape (a +:+ b)
          = (escape_char ch +:+ escape a) +:+ escape b).
  rewrite IH. symmetry. apply string_app_assoc.
Qed.

(** ** Running a handler *)

Ltac unfold_handler :=
  unfold calls, outcome, invoke, handle_message, start, send_chat_action,
    requests_post, raise_for_status, response_json, logging_error, reply_text,
    reply_html, try_except, bind, read, lift, emit, raise_if, raise, ret in *;
  simpl in *.

(** Case analysis on an innermost scrutinee of the goal. *)
Ltac case_on_match :=
  match goal with
  | |- context [match ?x with _ => _ end] =>
      lazymatch x with
      | context [match _ with _ => _ end] => fail
      | _ => destruct x eqn:?; simpl in *
      end
  end.

(** Without a host the handler only sends the configuration error. *)
Lemma handle_message_unconfigured (g : Globals) (update : Update) (w : World) :
  truthy (OLLAMA_HOST g) = false ->
  invoke handle_message g update w =
    match reply_raises w 0 (PyStr config_error_text) with
    | None =>
        (Return tt,
         {| globals := g; trace := [ReplyText (PyStr config_error_text) true] |})
    | Some e =>
        (Raise e,
         {| globals := g; trace := [ReplyText (PyStr config_error_text) false] |})
    end.
Proof.
  intros Hhost. unfold_handler. rewrite Hhost. simpl.
  destruct (reply_raises w 0 (PyStr config_error_text)); reflexivity.
Qed.

(** ** Exactly one reply *)

(** An update with a message, on a platform that accepts the calls: one
    call to [reply_text], which returns, and a normal return of the handler,
    on every branch. *)
Lemma handle_message_one_reply (g : Globals) (update : Update) (w : World) :
  platform_ok w ->
  length (reply_calls (calls handle_message g update w)) = 1 /\
  length (accepted_replies (calls handle_message g update w)) = 1 /\
  outcome handle_message g update w = Return tt.
Proof.
  intros [Htyping Hreply].
  destruct g as [token host endpoint model], w as [typing post replies].
  simpl in *. subst typing. unfold_handler.
  repeat (rewrite ?Hreply; simpl; try case_on_match); auto.
Qed.

(** X19. For an update that carries a message, and a platform that accepts
    the calls made to it, the handler makes exactly one call to
    [reply_text], that call returns, and the handler returns normally: on
    the configuration-missing branch, the success branch and each of the
    three [except] branches alike. *)
Theorem handle_message_replies_exactly_once (g : Globals) (update : Update) (w : World) :
  platform_ok w ->
  length (reply_calls (calls handle_message g update w)) = 1 /\
  length (accepted_replies (calls handle_message g update w)) = 1 /\
  outcome handle_message g update w = Return tt.
Proof. apply handle_message_one_reply. Qed.

(** C1, at the failing input.  An edited text message, or a channel post,
    reaches [handle_message] with [update.message] set to [None]: line 56
    raises [AttributeError] before any call is made, so the message gets no
    reply at all, whatever the outside does, and the loop goes on with
    nothing sent. *)
Theorem edited_text_message_gets_no_reply (p : Process) (chat_id : Z) (text : string)
    (w : World) :
  served_calls (module_globals p) (EditedTextMessage chat_id text) w = [] /\
  length (reply_calls (served_calls (module_globals p) (EditedTextMessage chat_id text) w))
    = 0 /\
  served_outcome (module_globals p) (EditedTextMessage chat_id text) w
    = Raise (Exn AttributeError "'NoneType' object has no attribute 'text'") /\
  process_update p (EditedTextMessage chat_id text) w = p.
Proof.
  destruct p as [g h].
  unfold process_update, served_calls, served_outcome, serve. simpl.
  repeat split. now rewrite app_nil_r.
Qed.

(** Whatever the platform does, at most one call to [reply_text] returns,
    and the handler calls it at most twice (the second time from the
    catch-all clause, when the reply of the success branch raised). *)
Lemma handle_message_accepts_at_most_once (g : Globals) (update : Update) (w : World) :
  length (accepted_replies (calls handle_message g update w)) <= 1 /\
  length (reply_calls (calls handle_message g update w)) <= 2.
Proof.
  destruct g as [token host endpoint model], w as [typing post replies].
  unfold_handler.
  repeat (simpl; try case_on_match); simpl; lia.
Qed.

(** ** The configuration check *)

(** C2. With [OLLAMA_HOST] unset the handler makes no network call: its only
    call is one [reply_text] with the fixed configuration-error text, after
    which it is done with the message. *)
Theorem unset_host_replies_config_error (g : Globals) (update : Update) (w : World) :
  OLLAMA_HOST g = None ->
  exists delivered,
    calls handle_message g update w
      = [ReplyText
           (PyStr "Ollama host is not configured. Please set the OLLAMA_HOST environment variable.")
           delivered] /\
    post_calls (calls handle_message g update w) = [] /\
    (delivered = true -> outcome handle_message g update w = Return tt).
Proof.
  intros Hhost.
  assert (Hfalsy : truthy (OLLAMA_HOST g) = false) by now rewrite Hhost.
  unfold calls, outcome. rewrite (handle_message_unconfigured g update w Hfalsy).
  fold config_error_text.
  destruct (reply_raises w 0 (PyStr config_error_text)); simpl.
  - exists false. repeat split. discriminate.
  - exists true. repeat split.
Qed.

(** The same holds when the variable is set to the empty string. *)
Lemma empty_host_replies_config_error (g : Globals) (update : Update) (w : World) :
  OLLAMA_HOST g = Some EmptyString ->
  exists delivered,
    calls handle_message g update w = [ReplyText (PyStr config_error_text) delivered].
Proof.
  intros Hhost.
  assert (Hfalsy : truthy (OLLAMA_HOST g) = false) by now rewrite Hhost.
  unfold calls. rewrite (handle_message_unconfigured g update w Hfalsy).
  destruct (reply_raises w 0 (PyStr config_error_text)); simpl; eauto.
Qed.

(** ** The success branch *)

Lemma handle_message_relays (g : Globals) (update : Update) (w : World)
    (r : Response) (items : list (string * pyval)) :
  truthy (OLLAMA_HOST g) = true ->
  send_chat_action_raises w = None ->
  post_outcome w = Return r ->
  (status_code r < 400 \/ 600 <= status_code r)%Z ->
  json_body r = inr (PyDict items) ->
  exists delivered rest,
    calls handle_message g update w
      = ([SendChatAction (effective_chat_id update) "typing";
          Post (OLLAMA_GENERATE_ENDPOINT g) (payload_of g update);
          Json;
          ReplyText (relayed items) delivered] ++ rest)%list /\
    (reply_raises w 0 (relayed items) = None ->
       delivered = true /\ rest = [] /\ outcome handle_message g update w = Return tt).
Proof.
  intros Hhost Htyping Hpost Hcode Hbody.
  destruct g as [token host endpoint model], w as [typing post replies].
  destruct r as [code reason url body].
  simpl in *. subst typing post body. unfold_handler. rewrite Hhost. simpl.
  replace ((400 <=? code)%Z && (code <? 500)%Z) with false by lia.
  replace ((500 <=? code)%Z && (code <? 600)%Z) with false by lia.
  simpl. unfold relayed.
  destruct (items_lookup "response" items) as [v|]; simpl.
  - destruct (replies 0 v) as [[[] msg]|] eqn:Hr; simpl;
      repeat case_on_match;
      solve [ eexists false, _; split; [reflexivity | discriminate]
            | exists true, []; repeat split ].
  - destruct (replies 0 (PyStr fallback_text)) as [[[] msg]|] eqn:Hr; simpl;
      repeat case_on_match;
      solve [ eexists false, _; split; [reflexivity | discriminate]
            | exists true, []; repeat split ].
Qed.

(** C3. A 2xx answer whose JSON object has a string under [response] is
    relayed verbatim: the handler's one reply is [reply_text] with exactly
    that string, not truncated and not escaped. *)
Theorem string_response_relayed_verbatim (g : Globals) (update : Update) (w : World)
    (r : Response) (items : list (string * pyval)) (s : string) :
  truthy (OLLAMA_HOST g) = true ->
  platform_ok w ->
  post_outcome w = Return r ->
  (200 <= status_code r < 300)%Z ->
  json_body r = inr (PyDict items) ->
  items_lookup "response" items = Some (PyStr s) ->
  calls handle_message g update w
    = [SendChatAction (effective_chat_id update) "typing";
       Post (OLLAMA_GENERATE_ENDPOINT g) (payload_of g update);
       Json;
       ReplyText (PyStr s) true] /\
  outcome handle_message g update w = Return tt.
Proof.
  intros Hhost [Htyping Hreply] Hpost Hcode Hbody Hfield.
  destruct (handle_message_relays g update w r items Hhost Htyping Hpost)
    as (delivered & rest & Hcalls & Hok); [lia | exact Hbody |].
  unfold relayed in *. rewrite Hfield in *.
  destruct (Hok (Hreply _ _)) as (-> & -> & Hout).
  now rewrite Hcalls, Hout.
Qed.

(** C4. A 2xx answer whose JSON object has no [response] key is answered
    with exactly the fallback text. *)
Theorem missing_response_gets_fallback (g : Globals) (update : Update) (w : World)
    (r : Response) (items : list (string * pyval)) :
  truthy (OLLAMA_HOST g) = true ->
  platform_ok w ->
  post_outcome w = Return r ->
  (200 <= status_code r < 300)%Z ->
  json_body r = inr (PyDict items) ->
  items_lookup "response" items = None ->
  calls handle_message g update w
    = [SendChatAction (effective_chat_id update) "typing";
       Post (OLLAMA_GENERATE_ENDPOINT g) (payload_of g update);
       Json;
       ReplyText (PyStr "No response from model.") true] /\
  outcome handle_message g update w = Return tt.
Proof.
  intros Hhost [Htyping Hreply] Hpost Hcode Hbody Hfield.
  destruct (handle_message_relays g update w r items Hhost Htyping Hpost)
    as (delivered & rest & Hcalls & Hok); [lia | exact Hbody |].
  unfold relayed in *. rewrite Hfield in *.
  destruct (Hok (Hreply _ _)) as (-> & -> & Hout).
  now rewrite Hcalls, Hout.
Qed.

(** C10. Whatever value a 2xx answer has under [response] (a string, null, a
    number, ...) is what [reply_text] is called with: the fallback is only
    for an absent key, and the value is neither checked nor converted. *)
Theorem response_value_passed_unchanged (g : Globals) (update : Update) (w : World)
    (r : Response) (items : list (string * pyval)) (v : pyval) :
  truthy (OLLAMA_HOST g) = true ->
  send_chat_action_raises w = None ->
  post_outcome w = Return r ->
  (200 <= status_code r < 300)%Z ->
  json_body r = inr (PyDict items) ->
  items_lookup "response" items = Some v ->
  exists delivered rest,
    calls handle_message g update w
      = ([SendChatAction (effective_chat_id update) "typing";
          Post (OLLAMA_GENERATE_ENDPOINT g) (payload_of g update);
          Json;
          ReplyText v delivered] ++ rest)%list /\
    (reply_raises w 0 v = None -> delivered = true /\ rest = []).
Proof.
  intros Hhost Htyping Hpost Hcode Hbody Hfield.
  destruct (handle_message_relays g update w r items Hhost Htyping Hpost)
    as (delivered & rest & Hcalls & Hok); [lia | exact Hbody |].
  unfold relayed in *. rewrite Hfield in *.
  exists delivered, rest. split; [exact Hcalls |].
  intros Hr. destruct (Hok Hr) as (-> & -> & _). now split.
Qed.

(** ** The error branches *)

(** C6. When the POST fails at the connection level the handler logs and
    replies with the text that names the configured host and asks to check
    that the server is running, and returns normally. *)
Theorem connection_failure_names_host (g : Globals) (update : Update) (w : World)
    (host : string) (e : exn) :
  OLLAMA_HOST g = Some host ->
  host <> EmptyString ->
  platform_ok w ->
  post_outcome w = Raise e ->
  exn_cls e = ConnectionError ->
  let error_message :=
    "Could not connect to the Ollama server at " +:+ host
      +:+ ". Please make sure it is running and accessible." in
  calls handle_message g update w
    = [SendChatAction (effective_chat_id update) "typing";
       Post (OLLAMA_GENERATE_ENDPOINT g) (payload_of g update);
       LogError error_message;
       ReplyText (PyStr error_message) true] /\
  contains host error_message /\
  outcome handle_message g update w = Return tt.
Proof.
  intros Hhost Hne [Htyping Hreply] Hpost Hcls error_message.
  split; [| split; [apply contains_intro |]];
    destruct g as [token h endpoint model], w as [typing post replies];
    simpl in *; subst h typing post; destruct host as [|c host]; try congruence;
    unfold_handler; rewrite Hcls; simpl; rewrite Hreply; reflexivity.
Qed.

(** C5, as amended.  When the server answers with a 4xx or 5xx status the
    handler does not read the body: it logs and replies with the HTTP-error
    text, which carries the status code, the reason and the URL, and
    returns normally. *)
Theorem error_status_is_http_failure (g : Globals) (update : Update) (w : World)
    (r : Response) :
  truthy (OLLAMA_HOST g) = true ->
  platform_ok w ->
  post_outcome w = Return r ->
  (400 <= status_code r < 600)%Z ->
  exists kind,
    (kind = "Client" \/ kind = "Server") /\
    let error_message :=
      "HTTP error from Ollama server: " +:+ pretty (status_code r) +:+ " " +:+ kind
        +:+ " Error: " +:+ reason r +:+ " for url: " +:+ url r in
    calls handle_message g update w
      = [SendChatAction (effective_chat_id update) "typing";
         Post (OLLAMA_GENERATE_ENDPOINT g) (payload_of g update);
         LogError error_message;
         ReplyText (PyStr error_message) true] /\
    json_calls (calls handle_message g update w) = [] /\
    outcome handle_message g update w = Return tt.
Proof.
  intros Hhost [Htyping Hreply] Hpost Hcode.
  destruct g as [token h endpoint model], w as [typing post replies].
  destruct r as [code reason url body].
  simpl in *. subst typing post. unfold_handler. rewrite Hhost. simpl.
  destruct ((400 <=? code)%Z && (code <? 500)%Z) eqn:Hclient; simpl.
  - exists "Client". rewrite Hreply. simpl. repeat split. now left.
  - replace ((500 <=? code)%Z && (code <? 600)%Z) with true by lia. simpl.
    exists "Server". rewrite Hreply. simpl. repeat split. now right.
Qed.

(** ** Sample runs *)

Lemma accepting_ok (post : result Response) : platform_ok (accepting post).
Proof. split; [reflexivity | intros n text; reflexivity]. Defined.

(** A 303 answer without a [Location] header is not followed by the client
    and is not an error for [raise_for_status]: the body is read and its
    [response] is relayed. *)
Example see_other_run :
  calls handle_message sample_globals sample_update (accepting (Return see_other))
    = [SendChatAction 7 "typing";
       Post "http://localhost:11434/api/generate"
            (PyDict [("model", PyStr "llama3"); ("prompt", PyStr "hi");
                     ("stream", PyBool false)]);
       Json;
       ReplyText (PyStr "Hello!") true].
Proof. vm_compute. reflexivity. Qed.

(** C5, counterexample: at status 303 the body is parsed and relayed, so not
    every status outside 2xx is treated as an HTTP failure. *)
Lemma see_other_is_not_http_failure : ~ non_2xx_is_http_failure.
Proof.
  intros Hclaim.
  destruct (Hclaim sample_globals sample_update (accepting (Return see_other)) see_other)
    as [Hjson _].
  - vm_compute. reflexivity.
  - apply accepting_ok.
  - reflexivity.
  - simpl. lia.
  - vm_compute in Hjson. discriminate Hjson.
Qed.

(** ** No state across messages *)

(** Neither handler assigns to a global name. *)
Lemma handle_message_keeps_globals (g : Globals) (update : Update) (w : World) :
  globals (snd (invoke handle_message g update w)) = g.
Proof.
  destruct g as [token host endpoint model], w as [typing post replies].
  unfold_handler.
  repeat (simpl; try case_on_match); reflexivity.
Qed.

Lemma start_keeps_globals (g : Globals) (update : Update) (w : World) :
  globals (snd (invoke start g update w)) = g.
Proof. unfold_handler. case_on_match; reflexivity. Qed.

Lemma serve_keeps_globals (g : Globals) (i : inbound) (w : World) :
  globals (snd (serve g i w)) = g.
Proof.
  destruct i as [update | update | chat_id | chat_id text].
  - apply start_keeps_globals.
  - apply handle_message_keeps_globals.
  - reflexivity.
  - reflexivity.
Qed.

Lemma process_update_spec (p : Process) (i : inbound) (w : World) :
  process_update p i w
    = {| module_globals := module_globals p;
         history := history p ++ served_calls (module_globals p) i w |}.
Proof.
  unfold process_update, served_calls.
  pose proof (serve_keeps_globals (module_globals p) i w) as Hg.
  destruct (serve (module_globals p) i w) as [r st]. simpl in *. congruence.
Qed.

Lemma run_polling_keeps_globals (updates : list (inbound * World)) (p : Process) :
  module_globals (run_polling p updates) = module_globals p.
Proof.
  revert p. induction updates as [|[i w] rest IH]; intros p; simpl; [reflexivity |].
  rewrite IH, process_update_spec. reflexivity.
Qed.

(** On a platform that accepts the calls, the one reply to a message is
    the one the mapping rules give. *)
Lemma handle_message_follows_rule (g : Globals) (update : Update) (w : World) :
  platform_ok w ->
  reply_calls (calls handle_message g update w) = [ReplyText (reply_rule g w) true].
Proof.
  intros [Htyping Hreply].
  destruct g as [token host endpoint model], w as [typing post replies].
  simpl in *. subst typing. unfold reply_rule, status_detail. unfold_handler.
  destruct (truthy host); simpl; [| now rewrite Hreply].
  destruct post as [[code reason url body] | [cls str]]; simpl.
  - destruct (Z.leb_spec 400 code), (Z.ltb_spec code 500),
      (Z.leb_spec 500 code), (Z.ltb_spec code 600); try lia; simpl;
      try (rewrite Hreply; reflexivity);
      destruct body as [msg | data]; simpl; try (rewrite Hreply; reflexivity);
      destruct data; simpl; try (rewrite Hreply; reflexivity);
      unfold relayed; destruct (items_lookup "response" items); simpl;
      rewrite Hreply; reflexivity.
  - destruct cls; simpl; rewrite Hreply; reflexivity.
Qed.

(** C7. The same message processed twice against the same behaviour of the
    outside, whatever the process served before, gives the same calls twice
    and leaves the globals as they were; and each of the two runs sends its
    own reply, the one the mapping rules give for the globals set at
    start-up and what the inference side did: nothing of an earlier message
    enters the reply to a later one. *)
Theorem same_message_twice (g : Globals) (before : list (inbound * World))
    (update : Update) (w : World) :
  platform_ok w ->
  let p := main g before in
  let once := calls handle_message g update w in
  run_polling p [(TextMessage update, w); (TextMessage update, w)]
    = {| module_globals := g; history := history p ++ once ++ once |} /\
  reply_calls once = [ReplyText (reply_rule g w) true] /\
  reply_calls (once ++ once)
    = [ReplyText (reply_rule g w) true; ReplyText (reply_rule g w) true].
Proof.
  intros Hok p once.
  pose proof (handle_message_follows_rule g update w Hok) as Hrule. fold once in Hrule.
  split; [| split; [exact Hrule |]].
  - simpl. rewrite !process_update_spec. simpl.
    assert (Hg : module_globals p = g) by apply run_polling_keeps_globals.
    clearbody p. rewrite Hg.
    change (served_calls g (TextMessage update) w) with once.
    now rewrite <- app_assoc.
  - unfold reply_calls in *. rewrite filter_app, Hrule. reflexivity.
Qed.

(** ** Configuration *)

(** C8. Without [OLLAMA_MODEL] the model is ["llama3"]; the endpoint is the
    host followed by ["/api/generate"]; without [OLLAMA_HOST] the endpoint is
    the text ["None/api/generate"], which no request is ever sent to, since
    the handler answers with the configuration error instead.  Loading the
    globals is a total function: none of lines 12-17 can raise. *)
Theorem config_resolution (environ : gmap string string) :
  (environ !! "OLLAMA_MODEL" = None ->
     OLLAMA_MODEL (load_globals environ) = "llama3") /\
  (forall host, environ !! "OLLAMA_HOST" = Some host ->
     OLLAMA_GENERATE_ENDPOINT (load_globals environ) = host +:+ "/api/generate") /\
  (environ !! "OLLAMA_HOST" = None ->
     OLLAMA_GENERATE_ENDPOINT (load_globals environ) = "None/api/generate" /\
     forall update w,
       post_calls (calls handle_message (load_globals environ) update w) = [] /\
       exists delivered,
         calls handle_message (load_globals environ) update w
           = [ReplyText (PyStr config_error_text) delivered]).
Proof.
  unfold load_globals, environ_get, environ_get_default.
  split; [| split].
  - intros ->. reflexivity.
  - intros host ->. reflexivity.
  - intros Hhost. rewrite Hhost. split; [reflexivity |].
    intros update w. unfold calls.
    rewrite handle_message_unconfigured by reflexivity.
    destruct (reply_raises w 0 (PyStr config_error_text)); simpl; eauto.
Qed.

(** ** The greeting *)

Lemma start_run (g : Globals) (update : Update) (w : World) :
  invoke start g update w =
    let greeting := greeting_for (effective_user update) in
    match reply_raises w 0 (PyStr greeting) with
    | None => (Return tt, {| globals := g; trace := [ReplyHtml greeting true] |})
    | Some e => (Raise e, {| globals := g; trace := [ReplyHtml greeting false] |})
    end.
Proof.
  unfold_handler. fold (greeting_for (effective_user update)).
  destruct (reply_raises w 0 (PyStr (greeting_for (effective_user update))));
    reflexivity.
Qed.

Lemma greeting_contains_first_name (uid : Z) (surname : option string) :
  contains "Alice"
    (greeting_for {| user_id := uid; first_name := "Alice"; last_name := surname |}).
Proof.
  set (user := {| user_id := uid; first_name := "Alice"; last_name := surname |}).
  assert (Hname : exists tail, escape (full_name user) = "Alice" +:+ tail).
  { unfold full_name, user. simpl.
    destruct (truthy surname).
    - exists (escape (" " +:+ format surname)).
      change ("Alice" +:+ " " +:+ format surname)
        with ("Alice" +:+ (" " +:+ format surname)).
      now rewrite escape_app.
    - exists EmptyString. reflexivity. }
  destruct Hname as [tail Htail].
  unfold greeting_for, mention_html. rewrite Htail.
  exists ("Hi " +:+ "<a href=" +:+ dquote +:+ "tg://user?id=" +:+ pretty (user_id user)
            +:+ dquote +:+ ">"),
         (tail +:+ "</a>" +:+ "! I'm a bot powered by a local Ollama model. "
            +:+ "Just send me a message and I'll respond.").
  rewrite !string_app_assoc. reflexivity.
Qed.

(** C9. For a user named Alice, [start] makes one call, [reply_html] with a
    greeting that contains "Alice", and sends nothing to the inference
    endpoint. *)
Theorem start_greets_alice (uid : Z) (surname : option string) (chat : Z)
    (text : string) (g : Globals) (w : World) :
  let user := {| user_id := uid; first_name := "Alice"; last_name := surname |} in
  let update :=
    {| effective_user := user; effective_chat_id := chat; message_text := text |} in
  exists greeting delivered,
    calls start g update w = [ReplyHtml greeting delivered] /\
    contains "Alice" greeting /\
    post_calls (calls start g update w) = [] /\
    (reply_raises w 0 (PyStr greeting) = None ->
       delivered = true /\ outcome start g update w = Return tt).
Proof.
  intros user update. unfold calls, outcome. rewrite start_run. simpl.
  exists (greeting_for user).
  destruct (reply_raises w 0 (PyStr (greeting_for user))) eqn:Hr; simpl.
  - exists false. repeat split; try discriminate.
    apply greeting_contains_first_name.
  - exists true. repeat split. apply greeting_contains_first_name.
Qed.

(** ** When the platform refuses a call *)

(** The typing indicator is sent outside the [try]: an exception of that
    call leaves the handler before anything else is done. *)
Lemma typing_failure_leaves_handler (g : Globals) (update : Update) (w : World) (e : exn) :
  truthy (OLLAMA_HOST g) = true ->
  send_chat_action_raises w = Some e ->
  invoke handle_message g update w
    = (Raise e,
       {| globals := g;
          trace := [SendChatAction (effective_chat_id update) "typing"] |}).
Proof.
  intros Hhost Htyping.
  destruct g as [token host endpoint model], w as [typing post replies].
  simpl in *. subst typing. unfold_handler. rewrite Hhost. reflexivity.
Qed.

(** ** Instances *)

Lemma replies_exactly_once_on_hello :
  length (reply_calls (calls handle_message sample_globals sample_update
                             (accepting (Return ok_hello)))) = 1 /\
  length (accepted_replies (calls handle_message sample_globals sample_update
                                   (accepting (Return ok_hello)))) = 1 /\
  outcome handle_message sample_globals sample_update (accepting (Return ok_hello))
    = Return tt.
Proof.
  apply (handle_message_replies_exactly_once sample_globals sample_update
           (accepting (Return ok_hello))).
  apply accepting_ok.
Defined.

Lemma unset_host_sample :
  exists delivered,
    calls handle_message (load_globals empty) sample_update (accepting (Return ok_hello))
      = [ReplyText
           (PyStr "Ollama host is not configured. Please set the OLLAMA_HOST environment variable.")
           delivered] /\
    post_calls (calls handle_message (load_globals empty) sample_update
                      (accepting (Return ok_hello))) = [] /\
    (delivered = true ->
       outcome handle_message (load_globals empty) sample_update
               (accepting (Return ok_hello)) = Return tt).
Proof.
  apply (unset_host_replies_config_error (load_globals empty) sample_update
           (accepting (Return ok_hello))).
  vm_compute. reflexivity.
Defined.

Lemma hello_is_relayed :
  calls handle_message sample_globals sample_update (accepting (Return ok_hello))
    = [SendChatAction (effective_chat_id sample_update) "typing";
       Post (OLLAMA_GENERATE_ENDPOINT sample_globals) (payload_of sample_globals sample_update);
       Json;
       ReplyText (PyStr "Hello!") true] /\
  outcome handle_message sample_globals sample_update (accepting (Return ok_hello))
    = Return tt.
Proof.
  apply (string_response_relayed_verbatim sample_globals sample_update
           (accepting (Return ok_hello)) ok_hello hello_body "Hello!").
  - vm_compute. reflexivity.
  - apply accepting_ok.
  - reflexivity.
  - simpl. lia.
  - reflexivity.
  - reflexivity.
Defined.

Lemma empty_object_gets_fallback :
  calls handle_message sample_globals sample_update (accepting (Return ok_empty))
    = [SendChatAction (effective_chat_id sample_update) "typing";
       Post (OLLAMA_GENERATE_ENDPOINT sample_globals) (payload_of sample_globals sample_update);
       Json;
       ReplyText (PyStr "No response from model.") true] /\
  outcome handle_message sample_globals sample_update (accepting (Return ok_empty))
    = Return tt.
Proof.
  apply (missing_response_gets_fallback sample_globals sample_update
           (accepting (Return ok_empty)) ok_empty []).
  - vm_compute. reflexivity.
  - apply accepting_ok.
  - reflexivity.
  - simpl. lia.
  - reflexivity.
  - reflexivity.
Defined.

Lemma null_response_is_passed_on :
  exists delivered rest,
    calls handle_message sample_globals sample_update (refusing_first (Return ok_null))
      = ([SendChatAction (effective_chat_id sample_update) "typing";
          Post (OLLAMA_GENERATE_ENDPOINT sample_globals)
               (payload_of sample_globals sample_update);
          Json;
          ReplyText PyNone delivered] ++ rest)%list /\
    (reply_raises (refusing_first (Return ok_null)) 0 PyNone = None ->
       delivered = true /\ rest = []).
Proof.
  apply (response_value_passed_unchanged sample_globals sample_update
           (refusing_first (Return ok_null)) ok_null [("response", PyNone)] PyNone).
  - vm_compute. reflexivity.
  - reflexivity.
  - reflexivity.
  - simpl. lia.
  - reflexivity.
  - reflexivity.
Defined.

Lemma refused_connection_names_localhost :
  let error_message :=
    "Could not connect to the Ollama server at " +:+ "http://localhost:11434"
      +:+ ". Please make sure it is running and accessible." in
  calls handle_message sample_globals sample_update (accepting (Raise refused))
    = [SendChatAction (effective_chat_id sample_update) "typing";
       Post (OLLAMA_GENERATE_ENDPOINT sample_globals) (payload_of sample_globals sample_update);
       LogError error_message;
       ReplyText (PyStr error_message) true] /\
  contains "http://localhost:11434" error_message /\
  outcome handle_message sample_globals sample_update (accepting (Raise refused))
    = Return tt.
Proof.
  apply (connection_failure_names_host sample_globals sample_update
           (accepting (Raise refused)) "http://localhost:11434" refused).
  - vm_compute. reflexivity.
  - discriminate.
  - apply accepting_ok.
  - reflexivity.
  - reflexivity.
Defined.

Lemma server_error_is_reported :
  exists kind,
    (kind = "Client" \/ kind = "Server") /\
    let error_message :=
      "HTTP error from Ollama server: " +:+ pretty (status_code server_error) +:+ " "
        +:+ kind +:+ " Error: " +:+ reason server_error +:+ " for url: "
        +:+ url server_error in
    calls handle_message sample_globals sample_update (accepting (Return server_error))
      = [SendChatAction (effective_chat_id sample_update) "typing";
         Post (OLLAMA_GENERATE_ENDPOINT sample_globals)
              (payload_of sample_globals sample_update);
         LogError error_message;
         ReplyText (PyStr error_message) true] /\
    json_calls (calls handle_message sample_globals sample_update
                      (accepting (Return server_error))) = [] /\
    outcome handle_message sample_globals sample_update (accepting (Return server_error))
      = Return tt.
Proof.
  apply (error_status_is_http_failure sample_globals sample_update
           (accepting (Return server_error)) server_error).
  - vm_compute. reflexivity.
  - apply accepting_ok.
  - reflexivity.
  - simpl. lia.
Defined.

Lemma hello_twice :
  let p := main sample_globals [(StartCommand sample_update, accepting (Raise refused))] in
  let once :=
    calls handle_message sample_globals sample_update (accepting (Return ok_hello)) in
  run_polling p [(TextMessage sample_update, accepting (Return ok_hello));
                 (TextMessage sample_update, accepting (Return ok_hello))]
    = {| module_globals := sample_globals; history := history p ++ once ++ once |} /\
  reply_calls once
    = [ReplyText (reply_rule sample_globals (accepting (Return ok_hello))) true] /\
  reply_calls (once ++ once)
    = [ReplyText (reply_rule sample_globals (accepting (Return ok_hello))) true;
       ReplyText (reply_rule sample_globals (accepting (Return ok_hello))) true].
Proof.
  apply (same_message_twice sample_globals
           [(StartCommand sample_update, accepting (Raise refused))]
           sample_update (accepting (Return ok_hello))).
  apply accepting_ok.
Defined.

(** The rule at the sample answer. *)
Example reply_rule_hello :
  reply_rule sample_globals (accepting (Return ok_hello)) = PyStr "Hello!".
Proof. vm_compute. reflexivity. Qed.

Lemma config_resolution_sample :
  OLLAMA_MODEL (load_globals empty) = "llama3" /\
  OLLAMA_GENERATE_ENDPOINT (load_globals sample_environ)
    = "http://localhost:11434" +:+ "/api/generate" /\
  OLLAMA_GENERATE_ENDPOINT (load_globals empty) = "None/api/generate".
Proof.
  split; [| split].
  - apply (proj1 (config_resolution empty)). vm_compute. reflexivity.
  - apply (proj1 (proj2 (config_resolution sample_environ)) "http://localhost:11434").
    vm_compute. reflexivity.
  - apply (proj2 (proj2 (config_resolution empty))). vm_compute. reflexivity.
Defined.

(** The run of the specification's example, in full. *)
Example server_error_run :
  calls handle_message sample_globals sample_update (accepting (Return server_error))
    = [SendChatAction 7 "typing";
       Post "http://localhost:11434/api/generate"
            (PyDict [("model", PyStr "llama3"); ("prompt", PyStr "hi");
                     ("stream", PyBool false)]);
       LogError "HTTP error from Ollama server: 500 Server Error: Internal Server Error for url: http://localhost:11434/api/generate";
       ReplyText (PyStr "HTTP error from Ollama server: 500 Server Error: Internal Server Error for url: http://localhost:11434/api/generate") true].
Proof. vm_compute. reflexivity. Qed.

(** A refused reply of the success branch ends in the catch-all clause,
    which sends its own message. *)
Example refused_reply_run :
  calls handle_message sample_globals sample_update (refusing_first (Return ok_null))
    = [SendChatAction 7 "typing";
       Post "http://localhost:11434/api/generate"
            (PyDict [("model", PyStr "llama3"); ("prompt", PyStr "hi");
                     ("stream", PyBool false)]);
       Json;
       ReplyText PyNone false;
       LogError "An unexpected error occurred: Message text is empty";
       ReplyText (PyStr "An unexpected error occurred: Message text is empty") true].
Proof. vm_compute. reflexivity. Qed.

Example start_run_alice :
  calls start sample_globals sample_update (accepting (Raise refused))
    = [ReplyHtml
         ("Hi <a href=" +:+ dquote +:+ "tg://user?id=42" +:+ dquote
            +:+ ">Alice</a>! I'm a bot powered by a local Ollama model. Just send me a message and I'll respond.")
         true].
Proof. vm_compute. reflexivity. Qed.

(** * Further properties *)

(** ** The catch-all clause *)

(** X1. A body that is not JSON ends in the catch-all clause: after the
    failed [response.json()] the handler logs and replies with the
    unexpected-error text carrying the decoder's message, and returns. *)
Theorem undecodable_body_is_unexpected_error (g : Globals) (update : Update) (w : World)
    (r : Response) (msg : string) :
  truthy (OLLAMA_HOST g) = true ->
  platform_ok w ->
  post_outcome w = Return r ->
  (status_code r < 400 \/ 600 <= status_code r)%Z ->
  json_body r = inl msg ->
  let error_message := "An unexpected error occurred: " +:+ msg in
  calls handle_message g update w
    = [SendChatAction (effective_chat_id update) "typing";
       Post (OLLAMA_GENERATE_ENDPOINT g) (payload_of g update);
       Json;
       LogError error_message;
       ReplyText (PyStr error_message) true] /\
  outcome handle_message g update w = Return tt.
Proof.
  intros Hhost [Htyping Hreply] Hpost Hcode Hbody error_message.
  destruct g as [token host endpoint model], w as [typing post replies].
  destruct r as [code reason url body].
  simpl in *. subst typing post body. unfold_handler. rewrite Hhost. simpl.
  replace ((400 <=? code)%Z && (code <? 500)%Z) with false by lia.
  replace ((500 <=? code)%Z && (code <? 600)%Z) with false by lia.
  simpl. rewrite Hreply. split; reflexivity.
Qed.

(** X2. A JSON body that is not an object (a list, a string, a number,
    null) has no [get]: the handler replies with the unexpected-error text
    naming the type of the value, and returns. *)
Theorem non_object_body_is_unexpected_error (g : Globals) (update : Update) (w : World)
    (r : Response) (data : pyval) :
  truthy (OLLAMA_HOST g) = true ->
  platform_ok w ->
  post_outcome w = Return r ->
  (status_code r < 400 \/ 600 <= status_code r)%Z ->
  json_body r = inr data ->
  (forall items, data <> PyDict items) ->
  let error_message :=
    "An unexpected error occurred: '" +:+ type_name data
      +:+ "' object has no attribute 'get'" in
  calls handle_message g update w
    = [SendChatAction (effective_chat_id update) "typing";
       Post (OLLAMA_GENERATE_ENDPOINT g) (payload_of g update);
       Json;
       LogError error_message;
       ReplyText (PyStr error_message) true] /\
  outcome handle_message g update w = Return tt.
Proof.
  intros Hhost [Htyping Hreply] Hpost Hcode Hbody Hshape error_message.
  destruct g as [token host endpoint model], w as [typing post replies].
  destruct r as [code reason url body].
  simpl in *. subst typing post body. unfold_handler. rewrite Hhost. simpl.
  replace ((400 <=? code)%Z && (code <? 500)%Z) with false by lia.
  replace ((500 <=? code)%Z && (code <? 600)%Z) with false by lia.
  simpl.
  destruct data; try (exfalso; eapply Hshape; reflexivity);
    simpl; rewrite Hreply; split; reflexivity.
Qed.

(** X3. An exception of [requests.post] that is neither a connection error
    nor an HTTP error (a read timeout, a malformed URL) ends in the
    catch-all clause: the body is never read, the reply carries [str(e)],
    and the handler returns. *)
Theorem other_post_failure_is_unexpected_error (g : Globals) (update : Update) (w : World)
    (e : exn) :
  truthy (OLLAMA_HOST g) = true ->
  platform_ok w ->
  post_outcome w = Raise e ->
  exn_cls e <> ConnectionError ->
  exn_cls e <> HTTPError ->
  let error_message := "An unexpected error occurred: " +:+ exn_str e in
  calls handle_message g update w
    = [SendChatAction (effective_chat_id update) "typing";
       Post (OLLAMA_GENERATE_ENDPOINT g) (payload_of g update);
       LogError error_message;
       ReplyText (PyStr error_message) true] /\
  outcome handle_message g update w = Return tt.
Proof.
  intros Hhost [Htyping Hreply] Hpost Hconn Hhttp error_message.
  destruct g as [token host endpoint model], w as [typing post replies].
  destruct e as [cls str].
  simpl in *. subst typing post. unfold_handler. rewrite Hhost. simpl.
  destruct cls; try congruence; simpl; rewrite Hreply; split; reflexivity.
Qed.

(** X4. A reply of the success branch that the platform refuses is caught
    by the catch-all clause, which logs the refusal and sends a second
    message with its text; the handler returns when that one is accepted. *)
Theorem refused_reply_is_reported (g : Globals) (update : Update) (w : World)
    (r : Response) (items : list (string * pyval)) (e : exn) :
  truthy (OLLAMA_HOST g) = true ->
  send_chat_action_raises w = None ->
  post_outcome w = Return r ->
  (status_code r < 400 \/ 600 <= status_code r)%Z ->
  json_body r = inr (PyDict items) ->
  reply_raises w 0 (relayed items) = Some e ->
  exn_cls e <> ConnectionError ->
  exn_cls e <> HTTPError ->
  let error_message := "An unexpected error occurred: " +:+ exn_str e in
  exists delivered,
    calls handle_message g update w
      = [SendChatAction (effective_chat_id update) "typing";
         Post (OLLAMA_GENERATE_ENDPOINT g) (payload_of g update);
         Json;
         ReplyText (relayed items) false;
         LogError error_message;
         ReplyText (PyStr error_message) delivered] /\
    (reply_raises w 1 (PyStr error_message) = None ->
       delivered = true /\ outcome handle_message g update w = Return tt).
Proof.
  intros Hhost Htyping Hpost Hcode Hbody Hrefused Hconn Hhttp error_message.
  destruct g as [token host endpoint model], w as [typing post replies].
  destruct r as [code reason url body], e as [cls str].
  simpl in *. subst typing post body. unfold_handler. rewrite Hhost. simpl.
  replace ((400 <=? code)%Z && (code <? 500)%Z) with false by lia.
  replace ((500 <=? code)%Z && (code <? 600)%Z) with false by lia.
  simpl. unfold relayed in *.
  destruct (items_lookup "response" items) as [v|]; simpl;
    rewrite Hrefused; simpl;
    destruct cls; try congruence; simpl;
    subst error_message; unfold unexpected_error_text; simpl;
    destruct (replies 1 (PyStr ("An unexpected error occurred: " +:+ str)))
      eqn:Hsecond; simpl;
    solve [ exists false; split; [reflexivity | discriminate]
          | exists true; split; [reflexivity | intros _; split; reflexivity] ].
Qed.

(** X5. Any status outside 400-599, 2xx or not, is let through by
    [raise_for_status]: the body is read and the value under [response], or
    the fallback text, is the one reply. *)
Theorem passing_status_is_relayed (g : Globals) (update : Update) (w : World)
    (r : Response) (items : list (string * pyval)) :
  truthy (OLLAMA_HOST g) = true ->
  platform_ok w ->
  post_outcome w = Return r ->
  (status_code r < 400 \/ 600 <= status_code r)%Z ->
  json_body r = inr (PyDict items) ->
  calls handle_message g update w
    = [SendChatAction (effective_chat_id update) "typing";
       Post (OLLAMA_GENERATE_ENDPOINT g) (payload_of g update);
       Json;
       ReplyText (relayed items) true] /\
  outcome handle_message g update w = Return tt.
Proof.
  intros Hhost [Htyping Hreply] Hpost Hcode Hbody.
  destruct (handle_message_relays g update w r items Hhost Htyping Hpost Hcode Hbody)
    as (delivered & rest & Hcalls & Hok).
  destruct (Hok (Hreply _ _)) as (-> & -> & Hout).
  now rewrite Hcalls, Hout.
Qed.

(** ** What leaves the handler, and what it sends *)

Lemma handle_message_raises_from_platform (g : Globals) (update : Update) (w : World)
    (e : exn) :
  outcome handle_message g update w = Raise e ->
  send_chat_action_raises w = Some e \/
  exists n text, reply_raises w n text = Some e.
Proof.
  destruct g as [token host endpoint model], w as [typing post replies].
  unfold_handler.
  repeat (simpl; try case_on_match); simpl;
    intros Hraise; inversion Hraise; subst; eauto.
Qed.

(** X6. Nothing the inference side does makes a handler raise.  An
    exception that leaves the handler of an inbound update is either the
    [AttributeError] of an update without a message (line 48 or line 56),
    or one the messaging platform raised, on the typing indicator or on a
    call that sends a message. *)
Theorem escaping_errors_are_not_from_inference (g : Globals) (i : inbound) (w : World)
    (e : exn) :
  served_outcome g i w = Raise e ->
  (has_message i = false /\
   (e = none_has_no "reply_html" \/ e = none_has_no "text")) \/
  send_chat_action_raises w = Some e \/
  exists n text, reply_raises w n text = Some e.
Proof.
  destruct i as [update | update | chat_id | chat_id text].
  - change (outcome start g update w = Raise e ->
            (true = false /\ (e = none_has_no "reply_html" \/ e = none_has_no "text")) \/
            send_chat_action_raises w = Some e \/
            exists n text, reply_raises w n text = Some e).
    unfold outcome. rewrite start_run. simpl.
    destruct (reply_raises w 0 (PyStr (greeting_for (effective_user update))))
      eqn:Hreply; simpl; intros Hraise; inversion Hraise; subst; eauto.
  - intros Hraise. right.
    apply (handle_message_raises_from_platform g update w e Hraise).
  - intros Hraise. inversion Hraise. left. auto.
  - intros Hraise. inversion Hraise. left. auto.
Qed.

Lemma handle_message_post_calls (g : Globals) (update : Update) (w : World) :
  post_calls (calls handle_message g update w)
    = if truthy (OLLAMA_HOST g)
      then match send_chat_action_raises w with
           | None => [Post (OLLAMA_GENERATE_ENDPOINT g) (payload_of g update)]
           | Some _ => []
           end
      else [].
Proof.
  destruct g as [token host endpoint model], w as [typing post replies].
  unfold_handler.
  repeat (simpl; try case_on_match); solve [reflexivity | congruence].
Qed.

(** X9. The handler sends one request per message and never retries: when
    the host is configured and the typing indicator went through there is
    exactly one POST, to the endpoint, with the model, the message text as
    the prompt and [stream] false, whatever the server answers; otherwise
    there is none. *)
Theorem one_request_per_message (g : Globals) (update : Update) (w : World) :
  post_calls (calls handle_message g update w)
    = if truthy (OLLAMA_HOST g)
      then match send_chat_action_raises w with
           | None =>
               [Post (OLLAMA_GENERATE_ENDPOINT g)
                     (PyDict [("model", PyStr (OLLAMA_MODEL g));
                              ("prompt", PyStr (message_text update));
                              ("stream", PyBool false)])]
           | Some _ => []
           end
      else [].
Proof. apply handle_message_post_calls. Qed.

(** X10. Whatever the outside does, an error that is logged is the text of
    the reply that follows it, and that reply is the handler's last call. *)
Theorem logged_errors_are_replied (g : Globals) (update : Update) (w : World) :
  well_logged (calls handle_message g update w).
Proof.
  destruct g as [token host endpoint model], w as [typing post replies].
  unfold_handler.
  repeat (simpl; try case_on_match); simpl; eauto.
Qed.

(** ** The polling loop *)

Lemma start_post_calls (g : Globals) (update : Update) (w : World) :
  post_calls (calls start g update w) = [].
Proof.
  unfold calls. rewrite start_run. simpl.
  destruct (reply_raises w 0 (PyStr (greeting_for (effective_user update))));
    reflexivity.
Qed.

Lemma post_calls_app (a b : list event) :
  post_calls (a ++ b) = (post_calls a ++ post_calls b)%list.
Proof. unfold post_calls. apply filter_app. Qed.

Lemma served_start (g : Globals) (update : Update) (w : World) :
  served_calls g (StartCommand update) w = calls start g update w.
Proof. reflexivity. Qed.

Lemma served_text (g : Globals) (update : Update) (w : World) :
  served_calls g (TextMessage update) w = calls handle_message g update w.
Proof. reflexivity. Qed.

Lemma handler_post_calls_bound (g : Globals) (i : inbound) (w : World) :
  length (post_calls (served_calls g i w))
    <= if is_text_message (i, w) then 1 else 0.
Proof.
  destruct i as [update | update | chat_id | chat_id text]; simpl.
  - now rewrite served_start, start_post_calls.
  - rewrite served_text, handle_message_post_calls.
    destruct (truthy (OLLAMA_HOST g)), (send_chat_action_raises w); simpl; lia.
  - reflexivity.
  - reflexivity.
Qed.

Lemma handler_requests (g : Globals) (i : inbound) (w : World) :
  Forall (request_of g) (served_calls g i w).
Proof.
  destruct i as [update | update | chat_id | chat_id text];
    [ rewrite served_start | rewrite served_text | constructor | constructor ].
  - unfold calls. rewrite start_run. simpl.
    destruct (reply_raises w 0 (PyStr (greeting_for (effective_user update))));
      simpl; repeat constructor; intros Hpost; discriminate Hpost.
  - destruct g as [token host endpoint model], w as [typing post replies].
    unfold_handler.
    repeat (simpl; try case_on_match); simpl;
      repeat (constructor;
              [ intros Hpost; simpl in Hpost;
                first [ discriminate Hpost | eexists; reflexivity ] | ]);
      constructor.
Qed.

Lemma reply_calls_app (a b : list event) :
  reply_calls (a ++ b) = (reply_calls a ++ reply_calls b)%list.
Proof. unfold reply_calls. apply filter_app. Qed.

Lemma served_reply_calls (g : Globals) (i : inbound) (w : World) :
  platform_ok w ->
  length (reply_calls (served_calls g i w)) = if has_message i then 1 else 0.
Proof.
  intros Hok.
  destruct i as [update | update | chat_id | chat_id text]; simpl.
  - rewrite served_start. unfold calls. rewrite start_run. simpl.
    destruct Hok as [_ Hreply]. now rewrite Hreply.
  - rewrite served_text. apply (handle_message_one_reply g update w Hok).
  - reflexivity.
  - reflexivity.
Qed.

(** X11. Over any run of the loop on a platform that accepts the calls, the
    handlers send exactly one message to the chat for each update that
    carries a message (a greeting for [/start], a reply for a text) and none
    for an update without one. *)
Theorem one_reply_per_update_with_message (g : Globals) (updates : list (inbound * World)) :
  Forall (fun u => platform_ok (snd u)) updates ->
  length (reply_calls (history (main g updates)))
    = length (filter (fun u => has_message (fst u)) updates).
Proof.
  intros Hok. unfold main.
  assert (Hgen : forall us p,
            Forall (fun u => platform_ok (snd u)) us ->
            length (reply_calls (history (run_polling p us)))
              = length (reply_calls (history p))
                + length (filter (fun u => has_message (fst u)) us)).
  { induction us as [|[i w] rest IH]; intros p Hus; [simpl; lia |].
    inversion Hus as [|u us' Hw Hrest]; subst. simpl in Hw.
    cbn [run_polling]. rewrite (IH _ Hrest).
    rewrite process_update_spec. simpl.
    rewrite reply_calls_app, length_app, (served_reply_calls _ i w Hw).
    rewrite filter_cons. simpl.
    destruct (has_message i) eqn:Hmsg;
      destruct (decide (has_message i)) as [Hd | Hd];
      rewrite Hmsg in Hd; simpl in *; try tauto; lia. }
  now rewrite (Hgen updates _ Hok).
Qed.

(** X12. Every request the process ever sends goes to the endpoint fixed
    at start-up and carries the model fixed at start-up, a string prompt
    and [stream] false. *)
Theorem every_request_uses_startup_config (g : Globals) (updates : list (inbound * World)) :
  Forall (request_of g) (history (main g updates)).
Proof.
  unfold main.
  assert (Hgen : forall us p,
            Forall (request_of (module_globals p)) (history p) ->
            Forall (request_of (module_globals p)) (history (run_polling p us))).
  { induction us as [|[i w] rest IH]; intros p Hp; simpl; [exact Hp |].
    pose proof (IH (process_update p i w)) as Hstep.
    rewrite process_update_spec in Hstep. simpl in Hstep.
    rewrite process_update_spec. apply Hstep.
    apply Forall_app. split; [exact Hp | apply handler_requests]. }
  apply (Hgen updates {| module_globals := g; history := [] |}). constructor.
Qed.

(** X13. A process started without a usable host never sends a request,
    whatever updates it serves. *)
Theorem unconfigured_process_never_posts (g : Globals) (updates : list (inbound * World)) :
  truthy (OLLAMA_HOST g) = false ->
  post_calls (history (main g updates)) = [].
Proof.
  intros Hhost. unfold main.
  assert (Hgen : forall us p,
            module_globals p = g ->
            post_calls (history (run_polling p us)) = post_calls (history p)).
  { induction us as [|[i w] rest IH]; intros p Hp; simpl; [reflexivity |].
    rewrite IH by (rewrite process_update_spec; exact Hp).
    rewrite process_update_spec. simpl. rewrite post_calls_app, Hp.
    destruct i as [update | update | chat_id | chat_id text].
    - rewrite served_start, start_post_calls. apply app_nil_r.
    - rewrite served_text, handle_message_post_calls, Hhost. apply app_nil_r.
    - apply app_nil_r.
    - apply app_nil_r. }
  now rewrite Hgen.
Qed.

(** X14. The process sends at most one request per text message it served:
    no retries, and none for [/start]. *)
Theorem requests_bounded_by_text_messages (g : Globals) (updates : list (inbound * World)) :
  length (post_calls (history (main g updates)))
    <= length (filter is_text_message updates).
Proof.
  unfold main.
  assert (Hgen : forall us p,
            length (post_calls (history (run_polling p us)))
              <= length (post_calls (history p)) + length (filter is_text_message us)).
  { induction us as [|[i w] rest IH]; intros p; [simpl; lia |].
    specialize (IH (process_update p i w)).
    rewrite process_update_spec in IH. simpl in IH.
    rewrite post_calls_app, length_app in IH.
    cbn [run_polling]. rewrite process_update_spec.
    pose proof (handler_post_calls_bound (module_globals p) i w) as Hone.
    rewrite filter_cons.
    destruct (is_text_message (i, w)) eqn:Htext;
      destruct (decide (is_text_message (i, w))) as [Hd | Hd];
      rewrite Htext in Hd; simpl in *; try tauto; lia. }
  apply (Hgen updates {| module_globals := g; history := [] |}).
Qed.

(** ** The environment *)

(** X15. A variable that is set is taken as it is, the empty string
    included: the defaults are for absent variables only, and the endpoint
    is built from the host as given. *)
Theorem set_variables_are_taken_as_given (environ : gmap string string)
    (token host model : string) :
  let g :=
    load_globals (<["TELEGRAM_BOT_TOKEN" := token]>
                    (<["OLLAMA_HOST" := host]>
                       (<["OLLAMA_MODEL" := model]> environ))) in
  TELEGRAM_BOT_TOKEN g = token /\
  OLLAMA_HOST g = Some host /\
  OLLAMA_GENERATE_ENDPOINT g = host +:+ "/api/generate" /\
  OLLAMA_MODEL g = model /\
  TELEGRAM_BOT_TOKEN (load_globals (delete "TELEGRAM_BOT_TOKEN" environ))
    = "YOUR_TELEGRAM_BOT_TOKEN".
Proof.
  unfold load_globals, environ_get, environ_get_default. simpl.
  rewrite lookup_insert_eq.
  rewrite (lookup_insert_ne _ "TELEGRAM_BOT_TOKEN" "OLLAMA_HOST") by discriminate.
  rewrite lookup_insert_eq.
  rewrite (lookup_insert_ne _ "TELEGRAM_BOT_TOKEN" "OLLAMA_MODEL") by discriminate.
  rewrite (lookup_insert_ne _ "OLLAMA_HOST" "OLLAMA_MODEL") by discriminate.
  rewrite lookup_insert_eq, lookup_delete_eq.
  repeat split.
Qed.

(** X16. Only the three variables matter: setting any other variable
    leaves the loaded globals as they are. *)
Theorem other_variables_are_ignored (environ : gmap string string) (name value : string) :
  name <> "TELEGRAM_BOT_TOKEN" ->
  name <> "OLLAMA_HOST" ->
  name <> "OLLAMA_MODEL" ->
  load_globals (<[name := value]> environ) = load_globals environ.
Proof.
  intros Htoken Hhost Hmodel.
  unfold load_globals, environ_get, environ_get_default.
  now rewrite !lookup_insert_ne by assumption.
Qed.

(** ** When the platform refuses a call, continued *)

(** X7. Whatever the outside does, the handler calls [reply_text] at most
    twice for one message, and at most one of those calls returns: the
    second call is only made after the first one raised. *)
Theorem at_most_one_reply_call_returns (g : Globals) (update : Update) (w : World) :
  length (accepted_replies (calls handle_message g update w)) <= 1 /\
  length (reply_calls (calls handle_message g update w)) <= 2.
Proof. apply handle_message_accepts_at_most_once. Qed.

(** X8. The typing indicator is outside the [try]: when the platform
    refuses it, the exception leaves the handler, no request is sent and
    nothing is replied. *)
Theorem typing_failure_sends_nothing (g : Globals) (update : Update) (w : World) (e : exn) :
  truthy (OLLAMA_HOST g) = true ->
  send_chat_action_raises w = Some e ->
  calls handle_message g update w = [SendChatAction (effective_chat_id update) "typing"] /\
  outcome handle_message g update w = Raise e /\
  post_calls (calls handle_message g update w) = [] /\
  reply_calls (calls handle_message g update w) = [].
Proof.
  intros Hhost Htyping. unfold calls, outcome.
  rewrite (typing_failure_leaves_handler g update w e Hhost Htyping).
  repeat split.
Qed.

(** X18. A host set to the empty string counts as unset: the endpoint is
    the bare path, and the handler answers with the configuration error
    without sending a request. *)
Theorem empty_host_counts_as_unset (environ : gmap string string)
    (update : Update) (w : World) :
  environ !! "OLLAMA_HOST" = Some EmptyString ->
  OLLAMA_GENERATE_ENDPOINT (load_globals environ) = "/api/generate" /\
  post_calls (calls handle_message (load_globals environ) update w) = [] /\
  exists delivered,
    calls handle_message (load_globals environ) update w
      = [ReplyText
           (PyStr "Ollama host is not configured. Please set the OLLAMA_HOST environment variable.")
           delivered].
Proof.
  intros Hhost.
  assert (Hg : OLLAMA_HOST (load_globals environ) = Some EmptyString)
    by (unfold load_globals, environ_get; now rewrite Hhost).
  split; [unfold load_globals, environ_get; now rewrite Hhost |].
  destruct (empty_host_replies_config_error (load_globals environ) update w Hg)
    as [delivered Hcalls].
  rewrite Hcalls. split; [reflexivity | now exists delivered].
Qed.

(** ** Instances of the further properties *)

Lemma not_json_sample :
  let error_message :=
    "An unexpected error occurred: " +:+ "Expecting value: line 1 column 1 (char 0)" in
  calls handle_message sample_globals sample_update (accepting (Return not_json))
    = [SendChatAction (effective_chat_id sample_update) "typing";
       Post (OLLAMA_GENERATE_ENDPOINT sample_globals) (payload_of sample_globals sample_update);
       Json;
       LogError error_message;
       ReplyText (PyStr error_message) true] /\
  outcome handle_message sample_globals sample_update (accepting (Return not_json))
    = Return tt.
Proof.
  apply (undecodable_body_is_unexpected_error sample_globals sample_update
           (accepting (Return not_json)) not_json
           "Expecting value: line 1 column 1 (char 0)").
  - vm_compute. reflexivity.
  - apply accepting_ok.
  - reflexivity.
  - simpl. lia.
  - reflexivity.
Defined.

Lemma list_body_sample :
  let error_message :=
    "An unexpected error occurred: '" +:+ type_name (PyList [])
      +:+ "' object has no attribute 'get'" in
  calls handle_message sample_globals sample_update (accepting (Return ok_list))
    = [SendChatAction (effective_chat_id sample_update) "typing";
       Post (OLLAMA_GENERATE_ENDPOINT sample_globals) (payload_of sample_globals sample_update);
       Json;
       LogError error_message;
       ReplyText (PyStr error_message) true] /\
  outcome handle_message sample_globals sample_update (accepting (Return ok_list))
    = Return tt.
Proof.
  apply (non_object_body_is_unexpected_error sample_globals sample_update
           (accepting (Return ok_list)) ok_list (PyList [])).
  - vm_compute. reflexivity.
  - apply accepting_ok.
  - reflexivity.
  - simpl. lia.
  - reflexivity.
  - intros items. discriminate.
Defined.

Lemma timeout_sample :
  let error_message := "An unexpected error occurred: " +:+ exn_str timed_out in
  calls handle_message sample_globals sample_update (accepting (Raise timed_out))
    = [SendChatAction (effective_chat_id sample_update) "typing";
       Post (OLLAMA_GENERATE_ENDPOINT sample_globals) (payload_of sample_globals sample_update);
       LogError error_message;
       ReplyText (PyStr error_message) true] /\
  outcome handle_message sample_globals sample_update (accepting (Raise timed_out))
    = Return tt.
Proof.
  apply (other_post_failure_is_unexpected_error sample_globals sample_update
           (accepting (Raise timed_out)) timed_out).
  - vm_compute. reflexivity.
  - apply accepting_ok.
  - reflexivity.
  - discriminate.
  - discriminate.
Defined.

Lemma refused_null_sample :
  let error_message :=
    "An unexpected error occurred: "
      +:+ exn_str (Exn TelegramError "Message text is empty") in
  exists delivered,
    calls handle_message sample_globals sample_update (refusing_first (Return ok_null))
      = [SendChatAction (effective_chat_id sample_update) "typing";
         Post (OLLAMA_GENERATE_ENDPOINT sample_globals)
              (payload_of sample_globals sample_update);
         Json;
         ReplyText (relayed [("response", PyNone)]) false;
         LogError error_message;
         ReplyText (PyStr error_message) delivered] /\
    (reply_raises (refusing_first (Return ok_null)) 1 (PyStr error_message) = None ->
       delivered = true /\
       outcome handle_message sample_globals sample_update
               (refusing_first (Return ok_null)) = Return tt).
Proof.
  apply (refused_reply_is_reported sample_globals sample_update
           (refusing_first (Return ok_null)) ok_null [("response", PyNone)]
           (Exn TelegramError "Message text is empty")).
  - vm_compute. reflexivity.
  - reflexivity.
  - reflexivity.
  - simpl. lia.
  - reflexivity.
  - reflexivity.
  - discriminate.
  - discriminate.
Defined.

Lemma see_other_sample :
  calls handle_message sample_globals sample_update (accepting (Return see_other))
    = [SendChatAction (effective_chat_id sample_update) "typing";
       Post (OLLAMA_GENERATE_ENDPOINT sample_globals) (payload_of sample_globals sample_update);
       Json;
       ReplyText (relayed hello_body) true] /\
  outcome handle_message sample_globals sample_update (accepting (Return see_other))
    = Return tt.
Proof.
  apply (passing_status_is_relayed sample_globals sample_update
           (accepting (Return see_other)) see_other hello_body).
  - vm_compute. reflexivity.
  - apply accepting_ok.
  - reflexivity.
  - simpl. lia.
  - reflexivity.
Defined.

Lemma escaped_error_sample :
  (has_message (TextMessage sample_update) = false /\
   (Exn TelegramError "Timed out" = none_has_no "reply_html" \/
    Exn TelegramError "Timed out" = none_has_no "text")) \/
  send_chat_action_raises (typing_refused (Return ok_hello))
    = Some (Exn TelegramError "Timed out") \/
  exists n text,
    reply_raises (typing_refused (Return ok_hello)) n text
      = Some (Exn TelegramError "Timed out").
Proof.
  apply (escaping_errors_are_not_from_inference sample_globals (TextMessage sample_update)
           (typing_refused (Return ok_hello)) (Exn TelegramError "Timed out")).
  vm_compute. reflexivity.
Defined.

Lemma one_reply_per_update_sample :
  length (reply_calls
            (history (main sample_globals
                           [(StartCommand sample_update, accepting (Return ok_hello));
                            (EditedTextMessage 7 "hi!", accepting (Return ok_hello));
                            (TextMessage sample_update, accepting (Raise refused))])))
    = length (filter (fun u => has_message (fst u))
                     [(StartCommand sample_update, accepting (Return ok_hello));
                      (EditedTextMessage 7 "hi!", accepting (Return ok_hello));
                      (TextMessage sample_update, accepting (Raise refused))]).
Proof.
  apply (one_reply_per_update_with_message sample_globals).
  repeat constructor.
Defined.

Lemma typing_refused_sample :
  calls handle_message sample_globals sample_update (typing_refused (Return ok_hello))
    = [SendChatAction (effective_chat_id sample_update) "typing"] /\
  outcome handle_message sample_globals sample_update (typing_refused (Return ok_hello))
    = Raise (Exn TelegramError "Timed out") /\
  post_calls (calls handle_message sample_globals sample_update
                    (typing_refused (Return ok_hello))) = [] /\
  reply_calls (calls handle_message sample_globals sample_update
                     (typing_refused (Return ok_hello))) = [].
Proof.
  apply (typing_failure_sends_nothing sample_globals sample_update
           (typing_refused (Return ok_hello)) (Exn TelegramError "Timed out")).
  - vm_compute. reflexivity.
  - reflexivity.
Defined.

Lemma unconfigured_process_sample :
  post_calls (history (main (load_globals empty)
                            [(TextMessage sample_update, accepting (Return ok_hello));
                             (StartCommand sample_update, accepting (Return ok_hello));
                             (TextMessage sample_update, accepting (Raise refused))]))
    = [].
Proof.
  apply (unconfigured_process_never_posts (load_globals empty)).
  vm_compute. reflexivity.
Defined.

Lemma path_is_ignored :
  load_globals (<["PATH" := "/usr/bin"]> sample_environ) = load_globals sample_environ.
Proof.
  apply (other_variables_are_ignored sample_environ "PATH" "/usr/bin"); discriminate.
Defined.

Lemma empty_host_sample :
  OLLAMA_GENERATE_ENDPOINT (load_globals (<["OLLAMA_HOST" := EmptyString]> empty))
    = "/api/generate" /\
  post_calls (calls handle_message (load_globals (<["OLLAMA_HOST" := EmptyString]> empty))
                    sample_update (accepting (Return ok_hello))) = [] /\
  exists delivered,
    calls handle_message (load_globals (<["OLLAMA_HOST" := EmptyString]> empty))
          sample_update (accepting (Return ok_hello))
      = [ReplyText
           (PyStr "Ollama host is not configured. Please set the OLLAMA_HOST environment variable.")
           delivered].
Proof.
  apply (empty_host_counts_as_unset (<["OLLAMA_HOST" := EmptyString]> empty)
           sample_update (accepting (Return ok_hello))).
  vm_compute. reflexivity.
Defined.
